(** * useSearch: the query-driven filter of anu-vue

    A shallow embedding of
    [packages/anu-vue/src/composables/useSearch.ts] and the properties its
    specification states about it.

    Conventions of the embedding.
    - JavaScript values are the inductive [value]; numbers are restricted
      to the integers that [String] prints digit by digit ([Z]), strings to
      byte strings ([string]).
    - [String(x)] on a number is its decimal form; [x.toLocaleString()] on a
      number depends on the host locale and is a parameter of the
      development ([numberToLocaleString]); [enUS] is the instance that
      groups digits by three with commas.
    - [toLocaleLowerCase] folds the ASCII capitals, which is what the
      locale-aware folding does on ASCII text.
    - Objects are lists of own properties; the prototype chain is not
      modelled, so a name that is not an own property reads as
      [undefined].
    - Caller-supplied predicates are total functions: one that throws is
      outside the model.
    - [useSearch] denotes the value of [results] read after the call, with
      the cells [search], [filterBy] and [strict] holding the given
      contents. *)

From Stdlib Require Import ZArith Bool List Ascii String Lia.
From stdpp Require Import base list strings pretty.

Local Open Scope string_scope.

(** ** Strings *)

(** [c] lowered when it is one of [A]..[Z]. *)
Definition lower_ascii (c : ascii) : ascii :=
  let n := nat_of_ascii c in
  if (65 <=? n)%nat && (n <=? 90)%nat then ascii_of_nat (n + 32) else c.

(** [s.toLocaleLowerCase()]. *)
Fixpoint toLocaleLowerCase (s : string) : string :=
  match s with
  | EmptyString => EmptyString
  | String c s' => String (lower_ascii c) (toLocaleLowerCase s')
  end.

(** [s.includes(q)]: [q] occurs in [s] as a contiguous substring. *)
Fixpoint includes (s q : string) : bool :=
  String.prefix q s
  || match s with
     | EmptyString => false
     | String _ s' => includes s' q
     end.

(** ** Values *)

#[warnings="-register-all"]
Inductive value : Type :=
| VUndefined
| VNull
| VBoolean (b : bool)
| VNumber (n : Z)
| VString (s : string)
| VArray (elems : list value)
| VObject (props : list (string * value))
| VFunction (name : string).

(** The result of the [typeof] operator. *)
Inductive jstype : Type :=
| TUndefined | TObject | TBoolean | TNumber | TString | TFunction.

Definition typeof (v : value) : jstype :=
  match v with
  | VUndefined => TUndefined
  | VNull => TObject
  | VBoolean _ => TBoolean
  | VNumber _ => TNumber
  | VString _ => TString
  | VArray _ => TObject
  | VObject _ => TObject
  | VFunction _ => TFunction
  end.

(** [obj[key]]: the first binding of [key], [undefined] when there is none
    or when [obj] carries no properties. *)
Fixpoint lookup_prop (props : list (string * value)) (key : string) : value :=
  match props with
  | [] => VUndefined
  | (k, v) :: rest => if String.eqb k key then v else lookup_prop rest key
  end.

Definition get (obj : value) (key : string) : value :=
  match obj with
  | VObject props => lookup_prop props key
  | _ => VUndefined
  end.

(** The own properties of a property list, each key once, in order of first
    appearance; a later binding of a key already seen is shadowed. *)
Fixpoint entries_from (seen : list string) (props : list (string * value))
  : list (string * value) :=
  match props with
  | [] => []
  | (k, v) :: rest =>
      if existsb (String.eqb k) seen then entries_from seen rest
      else (k, v) :: entries_from (k :: seen) rest
  end.

(** [Object.entries(obj)]. *)
Definition Object_entries (obj : value) : list (string * value) :=
  match obj with
  | VObject props => entries_from [] props
  | _ => []
  end.

(** [String(v)] on the primitives the filter converts. *)
Definition String_of (v : value) : string :=
  match v with
  | VString s => s
  | VNumber n => pretty n
  | VBoolean true => "true"
  | VBoolean false => "false"
  | VUndefined => "undefined"
  | VNull => "null"
  | _ => ""
  end.

(** ** Reactive cells *)

(** [Ref<A>]: a cell whose content is read with [.value]. *)
Record Ref (A : Type) : Type := mkRef { value_of : A }.
Arguments mkRef {A} _.
Arguments value_of {A} _.

(** [MaybeRef<A>]: a plain value or a cell. *)
Inductive MaybeRef (A : Type) : Type :=
| Plain (a : A)
| Cell (r : Ref A).
Arguments Plain {A} _.
Arguments Cell {A} _.

Definition unref {A : Type} (m : MaybeRef A) : A :=
  match m with
  | Plain a => a
  | Cell r => value_of r
  end.

(** A cell of a string seen as a JavaScript value: a non-null object that
    is not an array and that carries its content under [value]. *)
Definition ref_object (r : Ref string) : value :=
  VObject [("value", VString (value_of r))].

(** ** Helpers of [@/utils/helpers] *)

(** A string made of blanks only (space, tab, line feed, carriage return);
    the empty string is one. *)
Fixpoint is_blank (s : string) : bool :=
  match s with
  | EmptyString => true
  | String c s' =>
      let n := nat_of_ascii c in
      (Nat.eqb n 32 || Nat.eqb n 9 || Nat.eqb n 10 || Nat.eqb n 13)
      && is_blank s'
  end.

(** Modelled from the spec: [isEmpty], the shared emptiness predicate of
    [@/utils/helpers], is not among the sources. A value is empty when it
    is [null], [undefined], an empty or whitespace-equivalent string, or an
    empty array; nothing else is, an object with properties in
    particular. *)
Definition isEmpty (v : value) : bool :=
  match v with
  | VUndefined | VNull => true
  | VString s => is_blank s
  | VArray [] => true
  | _ => false
  end.

(** Modelled from the spec: [isObject] of [@/utils/helpers] is not among
    the sources. It holds of a mapping-like item: not an array, not a
    primitive, not [null]. *)
Definition isObject (v : value) : bool :=
  match v with
  | VObject _ => true
  | _ => false
  end.

(** ** The filter configuration *)

(** [CustomFilter]: [(val, q, item) => boolean]. *)
Definition CustomFilter : Type := value -> string -> value -> bool.

(** An element of a [filterBy] array: a property name or
    [{ name, filterBy }]. *)
Inductive filterByElement : Type :=
| ByName (name : string)
| ByCustom (name : string) (filterBy : CustomFilter).

(** [typeFilterBy]. *)
Inductive typeFilterBy : Type :=
| FilterByString (p : string)
| FilterByArray (l : list filterByElement)
| FilterByFunction (g : string -> value -> bool).

(** JavaScript truthiness of a configuration: only the empty string is
    falsy. *)
Definition truthy_filterBy (f : typeFilterBy) : bool :=
  match f with
  | FilterByString p => negb (String.eqb p "")
  | _ => true
  end.

(** [!_filterBy]. *)
Definition not_filterBy (f : option typeFilterBy) : bool :=
  match f with
  | None => true
  | Some f => negb (truthy_filterBy f)
  end.

(** ** [Array.prototype.some] *)

(** The callback is applied to the elements in order and the walk stops at
    the first element it accepts. The second component lists the elements
    the callback was applied to. *)
Fixpoint some_visit {A : Type} (f : A -> bool) (l : list A) : bool * list A :=
  match l with
  | [] => (false, [])
  | x :: rest =>
      if f x then (true, [x])
      else let '(b, seen) := some_visit f rest in (b, x :: seen)
  end.

Definition Array_some {A : Type} (f : A -> bool) (l : list A) : bool :=
  fst (some_visit f l).

Definition Array_some_calls {A : Type} (f : A -> bool) (l : list A) : list A :=
  snd (some_visit f l).

(** ** The composable *)

Section UseSearch.

(** [n.toLocaleString()] on a number, as the host locale formats it. *)
Variable numberToLocaleString : Z -> string.

(** [x.toLocaleString()] on a string, a number or a boolean. Strings and
    booleans inherit [Object.prototype.toLocaleString], which is
    [toString]. *)
Definition toLocaleString (v : value) : string :=
  match v with
  | VNumber n => numberToLocaleString n
  | _ => String_of v
  end.

(** Lines 31-44. [None] is the source's [null]. *)
Definition extractStringValueFromObj (obj : value) (key : string) (strict : bool)
  : option string :=
  let extractedVal := get obj key in
  if strict then
    match extractedVal with
    | VString s => Some s
    | _ => None
    end
  else
    match typeof extractedVal with
    | TString | TNumber | TBoolean => Some (toLocaleString extractedVal)
    | _ => None
    end.

(** Lines 46-52. [if (extractedVal)] is JavaScript truthiness of
    [string | null]: [null] and the empty string are falsy. *)
Definition filterObjectViaProperty (obj : value) (propertyName q : string)
  (strict : bool) : bool :=
  match extractStringValueFromObj obj propertyName strict with
  | Some extractedVal =>
      if String.eqb extractedVal "" then false
      else includes (toLocaleLowerCase extractedVal) q
  | None => false
  end.

(** Lines 75-82: the test on a primitive item. [Some b] is [return b],
    [None] falls through to the code below. *)
Definition primitiveTest (_strict : bool) (q : string) (item : value)
  : option bool :=
  if _strict then
    match item with
    | VString s => Some (includes (toLocaleLowerCase s) q)
    | _ => None
    end
  else
    match typeof item with
    | TString | TNumber | TBoolean =>
        Some (includes (toLocaleLowerCase (String_of item)) q)
    | _ => None
    end.

(** Lines 94-105: the callback of [Object.entries(item).some]. *)
Definition entryTest (_strict : bool) (q : string) (entry : string * value)
  : bool :=
  let '(_, val) := entry in
  if _strict then
    match val with
    | VString s => includes (toLocaleLowerCase s) q
    | _ => false
    end
  else
    match typeof val with
    | TString | TNumber | TBoolean =>
        includes (toLocaleLowerCase (String_of val)) q
    | _ => false
    end.

(** Lines 133-145: the callback of [_filterBy.some]. [searchValue] is
    [search.value], [q] its lowercased form. *)
Definition elementTest (searchValue q : string) (_strict : bool) (item : value)
  (k : filterByElement) : bool :=
  match k with
  | ByName p => filterObjectViaProperty item p q _strict
  | ByCustom name filterBy => filterBy (get item name) searchValue item
  end.

(** Lines 60-151: the callback of [data.filter]. *)
Definition keep (searchValue q : string) (_filterBy : option typeFilterBy)
  (_strict : bool) (item : value) : bool :=
  match _filterBy with
  | Some (FilterByFunction g) => g searchValue item
  | _ =>
      match primitiveTest _strict q item with
      | Some b => b
      | None =>
          if isObject item then
            if not_filterBy _filterBy then
              Array_some (entryTest _strict q) (Object_entries item)
            else
              match _filterBy with
              | Some (FilterByString p) =>
                  filterObjectViaProperty item p q _strict
              | Some (FilterByArray l) =>
                  Array_some (elementTest searchValue q _strict item) l
              | _ => false
              end
          else false
      end
  end.

(** Lines 54-152: the getter of [results]. [filterBy ? unref(filterBy) :
    filterBy] is the configuration without its cell in either branch:
    the only falsy configuration is the plain empty string. *)
Definition results (search : Ref string) (data : list value)
  (filterBy : option (MaybeRef typeFilterBy)) (strict : MaybeRef bool)
  : list value :=
  let q := toLocaleLowerCase (value_of search) in
  let _filterBy := option_map unref filterBy in
  let _strict := unref strict in
  List.filter (keep (value_of search) q _filterBy _strict) data.

(** Lines 25-158. [isEmpty] is applied to the cell [search] itself. *)
Definition useSearch (search : Ref string) (data : list value)
  (filterBy : option (MaybeRef typeFilterBy)) (strict : MaybeRef bool)
  : list value :=
  if isEmpty (ref_object search) then data
  else results search data filterBy strict.

End UseSearch.

(** ** Vocabulary of the statements *)

(** [typeof _filterBy === 'function']: the configuration is a whole-query
    predicate. *)
Definition isGlobalPredicate (f : option typeFilterBy) : bool :=
  match f with
  | Some (FilterByFunction _) => true
  | _ => false
  end.

(** The configuration is absent or a single property name. *)
Definition isNoneOrPropertyName (f : option typeFilterBy) : bool :=
  match f with
  | None | Some (FilterByString _) => true
  | _ => false
  end.

(** The admission policy shared by lines 35/39, 76/80 and 96/100: under
    [strict] only strings are compared, otherwise strings, numbers and
    booleans. *)
Definition admitted (strict : bool) (v : value) : bool :=
  match typeof v with
  | TString => true
  | TNumber | TBoolean => negb strict
  | _ => false
  end.

(** The [en-US] form of a non-negative decimal numeral: commas between
    groups of three digits, counted from the right. *)
Fixpoint group_digits (rev_digits : list ascii) (i : nat) (acc : string)
  : string :=
  match rev_digits with
  | [] => acc
  | d :: rest =>
      let acc' := String d acc in
      match rest with
      | [] => acc'
      | _ :: _ =>
          if (Nat.eqb (S i mod 3) 0)
          then group_digits rest (S i) (String "," acc')
          else group_digits rest (S i) acc'
      end
  end.

Definition enUS (n : Z) : string :=
  let digits := List.rev (list_ascii_of_string (pretty (Z.abs n))) in
  let body := group_digits digits 0 "" in
  if (n <? 0)%Z then String "-" body else body.

Example enUS_1234567 : enUS 1234567 = "1,234,567".
Proof. reflexivity. Qed.

Example enUS_neg : enUS (-1000) = "-1,000".
Proof. reflexivity. Qed.

Example enUS_small : enUS 42 = "42".
Proof. reflexivity. Qed.

Example String_of_1234 : String_of (VNumber 1234) = "1234".
Proof. reflexivity. Qed.

Example lower_ABC : toLocaleLowerCase "ABC-xyz 12" = "abc-xyz 12".
Proof. reflexivity. Qed.

Example includes_banana : includes "banana" "an" = true /\ includes "apple" "an" = false.
Proof. split; reflexivity. Qed.

(** The four scenarios of the specification, run on the model. *)
Example scenario_A :
  useSearch enUS (mkRef "an")
    [VString "Apple"; VString "banana"; VNumber 42; VBoolean true]
    None (Plain false)
  = [VString "banana"].
Proof. reflexivity. Qed.

Example scenario_B :
  useSearch enUS (mkRef "an")
    [VObject [("name", VString "Ann")]; VObject [("name", VString "Bob")]]
    (Some (Plain (FilterByString "name"))) (Plain false)
  = [VObject [("name", VString "Ann")]].
Proof. reflexivity. Qed.

Example scenario_C :
  useSearch enUS (mkRef "found")
    [VObject [("a", VString "x"); ("b", VString "found-it")]]
    None (Plain false)
  = [VObject [("a", VString "x"); ("b", VString "found-it")]].
Proof. reflexivity. Qed.

Example scenario_D :
  useSearch enUS (mkRef "1") [VObject [("a", VNumber 1)]]
    (Some (Plain (FilterByString "a"))) (Plain true)
  = [].
Proof. reflexivity. Qed.

(** * Properties *)

(** ** Substring test *)

Lemma append_String (c : ascii) (a b : string) :
  String c a +:+ b = String c (a +:+ b).
Proof. reflexivity. Qed.

Lemma append_Empty (b : string) : "" +:+ b = b.
Proof. reflexivity. Qed.

Lemma prefix_app (q s : string) :
  String.prefix q s = true <-> exists b, s = q +:+ b.
Proof.
  revert s. induction q as [|c q IH]; intros s; simpl.
  - split; [intros _; now exists s | now destruct s].
  - destruct s as [|d s]; simpl.
    + split; [discriminate | intros [b Hb]; discriminate].
    + destruct (ascii_dec c d) as [->|Hne].
      * rewrite IH. split; intros [b Hb]; exists b;
          rewrite append_String in *; congruence.
      * split; [discriminate|].
        intros [b Hb]. rewrite append_String in Hb. congruence.
Qed.

Lemma includes_app (s q : string) :
  includes s q = true <-> exists a b, s = a +:+ q +:+ b.
Proof.
  induction s as [|c s IH]; cbn [includes]; rewrite orb_true_iff, prefix_app.
  - split.
    + intros [[b Hb]|H]; [now exists "", b | discriminate].
    + intros [a [b Hab]]. left.
      destruct a; [now exists b | rewrite append_String in Hab; discriminate].
  - rewrite IH. split.
    + intros [[b Hb]|[a [b Hab]]]; [now exists "", b |].
      exists (String c a), b. rewrite append_String. now f_equal.
    + intros [a [b Hab]]. destruct a as [|c' a].
      * left. now exists b.
      * right. exists a, b. rewrite append_String in Hab. congruence.
Qed.

Lemma includes_empty_query (s : string) : includes s "" = true.
Proof. destruct s; reflexivity. Qed.

Lemma includes_in_empty (q : string) : includes "" q = true <-> q = "".
Proof. destruct q; simpl; split; congruence. Qed.

(** ** [some] *)

Lemma Array_some_existsb {A : Type} (f : A -> bool) (l : list A) :
  Array_some f l = existsb f l.
Proof.
  unfold Array_some. induction l as [|x l IH]; simpl; [reflexivity|].
  destruct (f x); simpl; [reflexivity|].
  destruct (some_visit f l); simpl in *. exact IH.
Qed.

Lemma Array_some_true {A : Type} (f : A -> bool) (l : list A) :
  Array_some f l = true <-> exists x, In x l /\ f x = true.
Proof. rewrite Array_some_existsb. apply existsb_exists. Qed.

(** On success the callback ran on the elements up to and including the
    first accepted one, and on no other. *)
Lemma Array_some_calls_true {A : Type} (f : A -> bool) (l : list A) :
  Array_some f l = true ->
  exists l1 k l2,
    l = (l1 ++ k :: l2)%list /\ Forall (fun x => f x = false) l1 /\ f k = true
    /\ Array_some_calls f l = (l1 ++ [k])%list.
Proof.
  unfold Array_some, Array_some_calls.
  induction l as [|x l IH]; simpl; [discriminate|].
  destruct (f x) eqn:Hx; simpl.
  - intros _. exists [], x, l. repeat split; auto.
  - destruct (some_visit f l) as [b seen]; simpl in *. intros Hb.
    destruct (IH Hb) as (l1 & k & l2 & -> & Hl1 & Hk & Hseen).
    exists (x :: l1), k, l2. repeat split; auto.
    simpl. now rewrite Hseen.
Qed.

(** On failure the callback ran on every element and refused each. *)
Lemma Array_some_calls_false {A : Type} (f : A -> bool) (l : list A) :
  Array_some f l = false ->
  Array_some_calls f l = l /\ Forall (fun x => f x = false) l.
Proof.
  unfold Array_some, Array_some_calls.
  induction l as [|x l IH]; simpl; [auto|].
  destruct (f x) eqn:Hx; simpl; [discriminate|].
  destruct (some_visit f l) as [b seen]; simpl in *. intros Hb.
  destruct (IH Hb) as [-> Hall]. auto.
Qed.

(** ** [filter] *)

Lemma filter_sublist {A : Type} (f : A -> bool) (l : list A) :
  sublist (List.filter f l) l.
Proof.
  induction l as [|x l IH]; simpl; [constructor|].
  destruct (f x); now constructor.
Qed.

Lemma filter_sublist_mono {A : Type} (f g : A -> bool) (l : list A) :
  (forall x, f x = true -> g x = true) ->
  sublist (List.filter f l) (List.filter g l).
Proof.
  intros Hfg. induction l as [|x l IH]; simpl; [constructor|].
  destruct (f x) eqn:Hf.
  - rewrite (Hfg x Hf). now constructor.
  - destruct (g x); [now apply sublist_cons | exact IH].
Qed.

(** ** Objects *)

Lemma entries_from_lookup (seen : list string) (props : list (string * value))
  (k : string) (v : value) :
  In (k, v) (entries_from seen props) ->
  ~ In k seen /\ lookup_prop props k = v.
Proof.
  revert seen. induction props as [|[k0 v0] rest IH]; intros seen; simpl.
  - intros [].
  - destruct (existsb (String.eqb k0) seen) eqn:Hseen.
    + intros Hin. destruct (IH _ Hin) as [Hns Hl]. split; [exact Hns|].
      destruct (String.eqb k0 k) eqn:Hk; [|exact Hl].
      apply String.eqb_eq in Hk. subst k0. exfalso.
      apply existsb_exists in Hseen as [x [Hx Hxk]].
      apply String.eqb_eq in Hxk. now subst x.
    + intros [Heq|Hin].
      * inversion Heq; subst. rewrite String.eqb_refl. split; [|reflexivity].
        intros Hin. assert (existsb (String.eqb k) seen = true) as Hc; [|congruence].
        apply existsb_exists. exists k. split; [exact Hin | apply String.eqb_refl].
      * destruct (IH _ Hin) as [Hns Hl].
        split; [intros Hs; apply Hns; now right|].
        destruct (String.eqb k0 k) eqn:Hk; [|exact Hl].
        apply String.eqb_eq in Hk. subst k0. exfalso. apply Hns. now left.
Qed.

(** Every pair of [Object.entries(obj)] is read back by [obj[key]]. *)
Lemma Object_entries_get (obj : value) (k : string) (v : value) :
  In (k, v) (Object_entries obj) -> get obj k = v.
Proof.
  destruct obj; simpl; try (intros []).
  intros Hin. now apply entries_from_lookup in Hin.
Qed.

(** A name bound nowhere in the object reads as [undefined]. *)
Lemma get_missing (props : list (string * value)) (key : string) :
  (forall v, ~ In (key, v) props) -> get (VObject props) key = VUndefined.
Proof.
  simpl. induction props as [|[k v] rest IH]; simpl; [reflexivity|].
  intros Hno. destruct (String.eqb k key) eqn:Hk.
  - apply String.eqb_eq in Hk. subst k. exfalso. apply (Hno v). now left.
  - apply IH. intros v' Hin. apply (Hno v'). now right.
Qed.

(** ** The early return *)

(** The emptiness test of line 28 is applied to the cell, which is an
    object whatever it holds. *)
Lemma isEmpty_ref_object (search : Ref string) :
  isEmpty (ref_object search) = false.
Proof. reflexivity. Qed.

Lemma useSearch_results (nls : Z -> string) (search : Ref string)
  (data : list value) (filterBy : option (MaybeRef typeFilterBy))
  (strict : MaybeRef bool) :
  useSearch nls search data filterBy strict
  = List.filter
      (keep nls (value_of search) (toLocaleLowerCase (value_of search))
         (option_map unref filterBy) (unref strict))
      data.
Proof. reflexivity. Qed.

(** C1. With the empty query the early return is not taken and the filter
    runs: an object without an admitted property, a number under
    [strict], every item refused by a whole-query predicate, and an object
    whose named property is the empty string are all dropped, so the result
    is not the input; nor is it for a query of one space. *)
Theorem empty_query_reaches_the_filter :
  useSearch enUS (mkRef "") [VObject [("id", VNumber 7)]] None (Plain true) = []
  /\ useSearch enUS (mkRef "") [VObject []] None (Plain false) = []
  /\ useSearch enUS (mkRef "") [VNumber 42; VString "a"] None (Plain true)
     = [VString "a"]
  /\ useSearch enUS (mkRef "") [VString "a"; VString "b"]
       (Some (Plain (FilterByFunction (fun _ _ => false)))) (Plain false)
     = []
  /\ useSearch enUS (mkRef "") [VObject [("name", VString "")]]
       (Some (Plain (FilterByString "name"))) (Plain false)
     = []
  /\ useSearch enUS (mkRef " ") [VString "a"] None (Plain false) = [].
Proof. repeat split. Qed.

(** ** Whole-query predicate *)

(** C2. When [filterBy] is a function [g], plain or held in a cell, the
    result is the items of the collection that [g] accepts, in order; [g]
    is applied to [search.value] as it stands (not lowercased) and to the
    item itself, and neither [strict] nor any built-in test takes part. *)
Theorem global_predicate_override (nls : Z -> string) (search : Ref string)
  (data : list value) (g : string -> value -> bool) (strict : MaybeRef bool) :
  useSearch nls search data (Some (Plain (FilterByFunction g))) strict
  = List.filter (g (value_of search)) data
  /\ useSearch nls search data (Some (Cell (mkRef (FilterByFunction g)))) strict
     = List.filter (g (value_of search)) data
  /\ (forall fb item,
        unref fb = FilterByFunction g ->
        In item (useSearch nls search data (Some fb) strict)
        <-> In item data /\ g (value_of search) item = true).
Proof.
  split; [reflexivity|]. split; [reflexivity|].
  intros fb item Hfb. rewrite useSearch_results. simpl. rewrite Hfb.
  apply filter_In.
Qed.

(** ** Items that are arrays *)

Lemma keep_array (nls : Z -> string) (searchValue q : string)
  (f : option typeFilterBy) (strict : bool) (elems : list value) :
  isGlobalPredicate f = false ->
  keep nls searchValue q f strict (VArray elems) = false.
Proof.
  intros Hf. unfold keep.
  destruct f as [[p|l|g]|]; try discriminate; now destruct strict.
Qed.

(** C3. Under every configuration other than a whole-query predicate, and
    for every query, an item that is an array is refused by the filter
    callback and so never belongs to the result. *)
Theorem array_item_excluded (nls : Z -> string) (search : Ref string)
  (data : list value) (filterBy : option (MaybeRef typeFilterBy))
  (strict : MaybeRef bool) (elems : list value) :
  isGlobalPredicate (option_map unref filterBy) = false ->
  keep nls (value_of search) (toLocaleLowerCase (value_of search))
    (option_map unref filterBy) (unref strict) (VArray elems) = false
  /\ ~ In (VArray elems) (useSearch nls search data filterBy strict).
Proof.
  intros Hf. split; [now apply keep_array|].
  rewrite useSearch_results. intros Hin. apply filter_In in Hin as [_ Hk].
  rewrite keep_array in Hk; [discriminate | exact Hf].
Qed.

Lemma array_item_excluded_witness :
  keep enUS "a" (toLocaleLowerCase "a") None false (VArray [VString "a"]) = false
  /\ ~ In (VArray [VString "a"])
        (useSearch enUS (mkRef "a") [VArray [VString "a"]; VString "a"]
           None (Plain false)).
Proof.
  apply (array_item_excluded enUS (mkRef "a")
           [VArray [VString "a"]; VString "a"] None (Plain false) [VString "a"]).
  reflexivity.
Defined.

(** ** Extraction of a property *)

(** The truthiness guard of line 48 changes nothing for a non-empty
    query. *)
Lemma guarded_includes (s q : string) :
  q <> "" ->
  (if String.eqb s "" then false else includes (toLocaleLowerCase s) q)
  = includes (toLocaleLowerCase s) q.
Proof.
  intros Hq. destruct (String.eqb s "") eqn:Hs; [|reflexivity].
  apply String.eqb_eq in Hs. subst s. simpl.
  destruct q; [congruence | reflexivity].
Qed.

Lemma filterObjectViaProperty_true (nls : Z -> string) (obj : value)
  (key q : string) (strict : bool) :
  filterObjectViaProperty nls obj key q strict = true
  <-> exists s, extractStringValueFromObj nls obj key strict = Some s
                /\ s <> "" /\ includes (toLocaleLowerCase s) q = true.
Proof.
  unfold filterObjectViaProperty.
  destruct (extractStringValueFromObj nls obj key strict) as [s|].
  - destruct (String.eqb s "") eqn:Hs.
    + apply String.eqb_eq in Hs. split; [discriminate|].
      intros (s' & Heq & Hne & _). congruence.
    + apply String.eqb_neq in Hs. split.
      * intros H. now exists s.
      * intros (s' & Heq & _ & H). congruence.
  - split; [discriminate | intros (s' & Heq & _); discriminate].
Qed.

(** C4, as stated, fails on the empty string: under either strictness the
    property [a] of [{a: ''}] is extracted (the value is the string [''],
    not "no value"), its folded form contains the folded empty query, and
    yet the property does not match. *)
Lemma extracted_empty_string_counterexample :
  extractStringValueFromObj enUS (VObject [("a", VString "")]) "a" true = Some ""
  /\ extractStringValueFromObj enUS (VObject [("a", VString "")]) "a" false = Some ""
  /\ includes (toLocaleLowerCase "") (toLocaleLowerCase "") = true
  /\ filterObjectViaProperty enUS (VObject [("a", VString "")]) "a"
       (toLocaleLowerCase "") true = false
  /\ filterObjectViaProperty enUS (VObject [("a", VString "")]) "a"
       (toLocaleLowerCase "") false = false
  /\ ~ (forall strict s,
          extractStringValueFromObj enUS (VObject [("a", VString "")]) "a" strict
          = Some s ->
          filterObjectViaProperty enUS (VObject [("a", VString "")]) "a"
            (toLocaleLowerCase "") strict = true
          <-> includes (toLocaleLowerCase s) (toLocaleLowerCase "") = true).
Proof.
  repeat split.
  intros H. specialize (H true "" eq_refl). simpl in H.
  destruct H as [_ H]. specialize (H eq_refl). discriminate.
Qed.

(** C4, amended. For an object and a property name: under [strict] the
    extraction yields the value exactly when it is a string; otherwise it
    yields the string itself, the locale form of a number or the name of a
    boolean, and nothing for any other value; a property that is missing
    or [undefined] yields nothing; when a non-empty string was extracted
    the property matches iff its folded form contains [q], the folded
    query; an extracted empty string and "no value" never match. *)
Theorem property_extraction_contract (nls : Z -> string)
  (props : list (string * value)) (key q : string) (strict : bool) :
  (forall s, extractStringValueFromObj nls (VObject props) key true = Some s
             <-> get (VObject props) key = VString s)
  /\ (admitted true (get (VObject props) key) = false ->
      extractStringValueFromObj nls (VObject props) key true = None)
  /\ (forall s, get (VObject props) key = VString s ->
                extractStringValueFromObj nls (VObject props) key false = Some s)
  /\ (forall n, get (VObject props) key = VNumber n ->
                extractStringValueFromObj nls (VObject props) key false
                = Some (nls n))
  /\ (forall b, get (VObject props) key = VBoolean b ->
                extractStringValueFromObj nls (VObject props) key false
                = Some (if b then "true" else "false"))
  /\ (admitted false (get (VObject props) key) = false ->
      extractStringValueFromObj nls (VObject props) key false = None)
  /\ ((forall v, ~ In (key, v) props) ->
      extractStringValueFromObj nls (VObject props) key strict = None)
  /\ (get (VObject props) key = VUndefined ->
      extractStringValueFromObj nls (VObject props) key strict = None)
  /\ (forall s, extractStringValueFromObj nls (VObject props) key strict = Some s ->
                s <> "" ->
                filterObjectViaProperty nls (VObject props) key q strict = true
                <-> includes (toLocaleLowerCase s) q = true)
  /\ (extractStringValueFromObj nls (VObject props) key strict = Some "" ->
      filterObjectViaProperty nls (VObject props) key q strict = false)
  /\ (extractStringValueFromObj nls (VObject props) key strict = None ->
      filterObjectViaProperty nls (VObject props) key q strict = false).
Proof.
  assert (Hundef : get (VObject props) key = VUndefined ->
                   extractStringValueFromObj nls (VObject props) key strict = None).
  { unfold extractStringValueFromObj. intros ->. now destruct strict. }
  unfold extractStringValueFromObj in *.
  repeat match goal with |- _ /\ _ => split end.
  - intros s. destruct (get (VObject props) key); split; congruence.
  - unfold admitted. destruct (get (VObject props) key); simpl; congruence.
  - now intros s ->.
  - now intros n ->.
  - intros b ->. now destruct b.
  - unfold admitted. destruct (get (VObject props) key); simpl; congruence.
  - intros Hmiss. apply Hundef. now apply get_missing.
  - exact Hundef.
  - intros s Hs Hne. unfold filterObjectViaProperty, extractStringValueFromObj.
    rewrite Hs. apply String.eqb_neq in Hne. now rewrite Hne.
  - intros Hs. unfold filterObjectViaProperty, extractStringValueFromObj.
    now rewrite Hs.
  - intros Hs. unfold filterObjectViaProperty, extractStringValueFromObj.
    now rewrite Hs.
Qed.

(** ** No configuration: scan of the own properties *)

Lemma entryTest_admitted (strict : bool) (q k : string) (v : value) :
  entryTest strict q (k, v)
  = admitted strict v && includes (toLocaleLowerCase (String_of v)) q.
Proof. destruct strict, v; reflexivity. Qed.

Lemma keep_object_None (nls : Z -> string) (searchValue q : string)
  (strict : bool) (props : list (string * value)) :
  keep nls searchValue q None strict (VObject props)
  = Array_some (entryTest strict q) (Object_entries (VObject props)).
Proof. now destruct strict. Qed.

(** On a pair of the object, with a non-empty query, the scan's test and
    the property test agree as soon as the number, if the value is one,
    has the same locale form and plain form. *)
Lemma entryTest_filterObjectViaProperty (nls : Z -> string) (obj : value)
  (strict : bool) (q k : string) (v : value) :
  q <> "" ->
  get obj k = v ->
  (strict = true \/ forall n, v = VNumber n -> nls n = pretty n) ->
  entryTest strict q (k, v) = filterObjectViaProperty nls obj k q strict.
Proof.
  intros Hq Hget Hnum.
  unfold filterObjectViaProperty, extractStringValueFromObj. rewrite Hget.
  destruct strict.
  - destruct v; simpl; try reflexivity. now rewrite guarded_includes.
  - destruct Hnum as [|Hnum]; [discriminate|].
    destruct v; simpl; try reflexivity.
    + now destruct b.
    + rewrite (Hnum n eq_refl). now rewrite guarded_includes.
    + now rewrite guarded_includes.
Qed.

(** C5, as stated, fails where the locale groups digits: with no
    configuration, [{a: 1234}] matches the query [1234] through
    [String(1234)], although the property test on its one pair fails
    ([(1234).toLocaleString()] is [1,234]); and it does not match the query
    [1,2], although the property test on that pair succeeds. *)
Lemma none_scan_counterexample :
  Object_entries (VObject [("a", VNumber 1234)]) = [("a", VNumber 1234)]
  /\ keep enUS "1234" (toLocaleLowerCase "1234") None false
       (VObject [("a", VNumber 1234)]) = true
  /\ filterObjectViaProperty enUS (VObject [("a", VNumber 1234)]) "a"
       (toLocaleLowerCase "1234") false = false
  /\ useSearch enUS (mkRef "1234") [VObject [("a", VNumber 1234)]] None
       (Plain false) = [VObject [("a", VNumber 1234)]]
  /\ keep enUS "1,2" (toLocaleLowerCase "1,2") None false
       (VObject [("a", VNumber 1234)]) = false
  /\ filterObjectViaProperty enUS (VObject [("a", VNumber 1234)]) "a"
       (toLocaleLowerCase "1,2") false = true.
Proof. repeat split. Qed.

(** C5, amended. With no configuration an object matches iff one of its
    (property, value) pairs has an admitted value (a string under
    [strict]; a string, a number or a boolean otherwise) whose plain string
    form [String(value)], folded, contains the folded query. For a
    non-empty query this is the property test of the extraction contract
    on some pair whenever [strict] is on or every numeric property has the
    same locale form and plain form. *)
Theorem none_strategy_scan (nls : Z -> string) (searchValue q : string)
  (strict : bool) (props : list (string * value)) :
  (keep nls searchValue q None strict (VObject props) = true
   <-> exists k v,
         In (k, v) (Object_entries (VObject props))
         /\ admitted strict v = true
         /\ includes (toLocaleLowerCase (String_of v)) q = true)
  /\ (q <> "" ->
      (strict = true
       \/ forall k n, In (k, VNumber n) (Object_entries (VObject props)) ->
                      nls n = pretty n) ->
      keep nls searchValue q None strict (VObject props) = true
      <-> exists k v,
            In (k, v) (Object_entries (VObject props))
            /\ filterObjectViaProperty nls (VObject props) k q strict = true).
Proof.
  rewrite keep_object_None, Array_some_true. split.
  - split.
    + intros [[k v] [Hin Ht]]. rewrite entryTest_admitted in Ht.
      apply andb_true_iff in Ht. now exists k, v.
    + intros (k & v & Hin & Ha & Hi). exists (k, v). split; [exact Hin|].
      rewrite entryTest_admitted. now rewrite Ha, Hi.
  - intros Hq Hnum.
    assert (Hagree : forall k v,
               In (k, v) (Object_entries (VObject props)) ->
               entryTest strict q (k, v)
               = filterObjectViaProperty nls (VObject props) k q strict).
    { intros k v Hin. apply entryTest_filterObjectViaProperty.
      - exact Hq.
      - now apply Object_entries_get.
      - destruct Hnum as [Hs|Hnum]; [now left | right].
        intros n ->. now apply (Hnum k). }
    split.
    + intros [[k v] [Hin Ht]]. exists k, v. split; [exact Hin|].
      now rewrite <- (Hagree k v Hin).
    + intros (k & v & Hin & Hf). exists (k, v). split; [exact Hin|].
      now rewrite (Hagree k v Hin).
Qed.

(** Where the two string forms of the number coincide the scan and the
    property test agree. *)
Example none_scan_small_number :
  keep enUS "4" (toLocaleLowerCase "4") None false
    (VObject [("a", VNumber 42)]) = true
  /\ filterObjectViaProperty enUS (VObject [("a", VNumber 42)]) "a"
       (toLocaleLowerCase "4") false = true.
Proof. split; reflexivity. Qed.

(** ** A list of names and custom matchers *)

Lemma keep_object_Array (nls : Z -> string) (searchValue q : string)
  (strict : bool) (props : list (string * value)) (l : list filterByElement) :
  keep nls searchValue q (Some (FilterByArray l)) strict (VObject props)
  = Array_some (elementTest nls searchValue q strict (VObject props)) l.
Proof. now destruct strict. Qed.

(** C6. When [filterBy] is a list, an object matches iff some element of
    the list succeeds. The elements are tried in the order of the list and
    the walk stops at the first success: the elements tried are those
    before the first success, which all failed, and that one; when none
    succeeds all were tried. A name applies the property test with the
    folded query; a custom matcher is applied to [item[name]], to
    [search.value] as it stands and to the item, and its answer is the
    element's answer. *)
Theorem matcher_list_dispatch (nls : Z -> string) (searchValue : string)
  (strict : bool) (props : list (string * value)) (l : list filterByElement) :
  (keep nls searchValue (toLocaleLowerCase searchValue)
     (Some (FilterByArray l)) strict (VObject props) = true
   <-> exists k,
         In k l
         /\ elementTest nls searchValue (toLocaleLowerCase searchValue) strict
              (VObject props) k = true)
  /\ (keep nls searchValue (toLocaleLowerCase searchValue)
        (Some (FilterByArray l)) strict (VObject props) = true ->
      exists l1 k l2,
        l = (l1 ++ k :: l2)%list
        /\ Forall (fun x => elementTest nls searchValue
                              (toLocaleLowerCase searchValue) strict
                              (VObject props) x = false) l1
        /\ elementTest nls searchValue (toLocaleLowerCase searchValue) strict
             (VObject props) k = true
        /\ Array_some_calls
             (elementTest nls searchValue (toLocaleLowerCase searchValue)
                strict (VObject props)) l
           = (l1 ++ [k])%list)
  /\ (keep nls searchValue (toLocaleLowerCase searchValue)
        (Some (FilterByArray l)) strict (VObject props) = false ->
      Array_some_calls
        (elementTest nls searchValue (toLocaleLowerCase searchValue)
           strict (VObject props)) l
      = l)
  /\ (forall p,
        elementTest nls searchValue (toLocaleLowerCase searchValue) strict
          (VObject props) (ByName p)
        = filterObjectViaProperty nls (VObject props) p
            (toLocaleLowerCase searchValue) strict)
  /\ (forall name (filterBy : CustomFilter),
        elementTest nls searchValue (toLocaleLowerCase searchValue) strict
          (VObject props) (ByCustom name filterBy)
        = filterBy (get (VObject props) name) searchValue (VObject props)).
Proof.
  rewrite keep_object_Array.
  split; [apply Array_some_true|].
  split; [apply Array_some_calls_true|].
  split; [|split; reflexivity].
  intros Hf. now apply Array_some_calls_false in Hf.
Qed.

(** A custom matcher sees the query with its capitals and decides alone:
    here it accepts an item none of whose properties contains the query. *)
Example custom_matcher_trusted :
  useSearch enUS (mkRef "ANN")
    [VObject [("name", VString "bob")]]
    (Some (Plain (FilterByArray
       [ByName "name";
        ByCustom "name" (fun _ q _ => String.eqb q "ANN")])))
    (Plain false)
  = [VObject [("name", VString "bob")]].
Proof. reflexivity. Qed.

(** ** Strictness *)

Lemma filterObjectViaProperty_strict_loose (nls : Z -> string) (obj : value)
  (p q : string) :
  filterObjectViaProperty nls obj p q true = true ->
  filterObjectViaProperty nls obj p q false = true.
Proof.
  unfold filterObjectViaProperty, extractStringValueFromObj.
  now destruct (get obj p).
Qed.

Lemma entryTest_strict_loose (q : string) (entry : string * value) :
  entryTest true q entry = true -> entryTest false q entry = true.
Proof. destruct entry as [k v]. now destruct v. Qed.

Lemma keep_strict_loose (nls : Z -> string) (searchValue q : string)
  (f : option typeFilterBy) (item : value) :
  isNoneOrPropertyName f = true ->
  keep nls searchValue q f true item = true ->
  keep nls searchValue q f false item = true.
Proof.
  intros Hf. unfold keep.
  destruct f as [[p|l|g]|]; try discriminate.
  - destruct item; simpl; try discriminate; try (intros H; exact H).
    destruct (negb (negb (p =? "")%string)).
    + rewrite !Array_some_true. intros [e [Hin He]]. exists e.
      split; [exact Hin | now apply entryTest_strict_loose].
    + apply filterObjectViaProperty_strict_loose.
  - destruct item; simpl; try discriminate; try (intros H; exact H).
    rewrite !Array_some_true. intros [e [Hin He]]. exists e.
    split; [exact Hin | now apply entryTest_strict_loose].
Qed.

(** C7. When [filterBy] is absent or a single property name, the result
    under [strict = true] is a subsequence of the result under
    [strict = false] for the same collection and query: every item
    returned in strict mode is returned in loose mode. *)
Theorem strictness_narrowing (nls : Z -> string) (search : Ref string)
  (data : list value) (filterBy : option (MaybeRef typeFilterBy))
  (strictOn strictOff : MaybeRef bool) :
  isNoneOrPropertyName (option_map unref filterBy) = true ->
  unref strictOn = true ->
  unref strictOff = false ->
  sublist (useSearch nls search data filterBy strictOn)
          (useSearch nls search data filterBy strictOff)
  /\ (forall item,
        In item (useSearch nls search data filterBy strictOn) ->
        In item (useSearch nls search data filterBy strictOff)).
Proof.
  intros Hf Hon Hoff. rewrite !useSearch_results, Hon, Hoff.
  assert (Hsub : sublist
            (List.filter (keep nls (value_of search)
                            (toLocaleLowerCase (value_of search))
                            (option_map unref filterBy) true) data)
            (List.filter (keep nls (value_of search)
                            (toLocaleLowerCase (value_of search))
                            (option_map unref filterBy) false) data)).
  { apply filter_sublist_mono. intros x. now apply keep_strict_loose. }
  split; [exact Hsub|].
  intros item Hin. apply list_elem_of_In. apply list_elem_of_In in Hin.
  eapply elem_of_sublist; eauto.
Qed.

Lemma strictness_narrowing_witness :
  sublist
    (useSearch enUS (mkRef "1")
       [VObject [("a", VNumber 1)]; VObject [("a", VString "x1")]]
       (Some (Plain (FilterByString "a"))) (Plain true))
    (useSearch enUS (mkRef "1")
       [VObject [("a", VNumber 1)]; VObject [("a", VString "x1")]]
       (Some (Plain (FilterByString "a"))) (Cell (mkRef false)))
  /\ (forall item,
        In item
          (useSearch enUS (mkRef "1")
             [VObject [("a", VNumber 1)]; VObject [("a", VString "x1")]]
             (Some (Plain (FilterByString "a"))) (Plain true)) ->
        In item
          (useSearch enUS (mkRef "1")
             [VObject [("a", VNumber 1)]; VObject [("a", VString "x1")]]
             (Some (Plain (FilterByString "a"))) (Cell (mkRef false)))).
Proof.
  apply (strictness_narrowing enUS (mkRef "1")
           [VObject [("a", VNumber 1)]; VObject [("a", VString "x1")]]
           (Some (Plain (FilterByString "a"))) (Plain true) (Cell (mkRef false)));
    reflexivity.
Defined.

(** The two results of the witness differ: strict mode drops [{a: 1}]. *)
Example strict_mode_drops_numbers :
  useSearch enUS (mkRef "1")
    [VObject [("a", VNumber 1)]; VObject [("a", VString "x1")]]
    (Some (Plain (FilterByString "a"))) (Plain true)
  = [VObject [("a", VString "x1")]]
  /\ useSearch enUS (mkRef "1")
       [VObject [("a", VNumber 1)]; VObject [("a", VString "x1")]]
       (Some (Plain (FilterByString "a"))) (Plain false)
     = [VObject [("a", VNumber 1)]; VObject [("a", VString "x1")]].
Proof. split; reflexivity. Qed.

(** ** Case folding *)

Lemma keep_string (nls : Z -> string) (searchValue q : string)
  (f : option typeFilterBy) (strict : bool) (s : string) :
  isGlobalPredicate f = false ->
  keep nls searchValue q f strict (VString s)
  = includes (toLocaleLowerCase s) q.
Proof.
  intros Hf. unfold keep.
  destruct f as [[p|l|g]|]; try discriminate; now destruct strict.
Qed.

Lemma useSearch_strings (nls : Z -> string) (search : Ref string)
  (ss : list string) (filterBy : option (MaybeRef typeFilterBy))
  (strict : MaybeRef bool) :
  isGlobalPredicate (option_map unref filterBy) = false ->
  useSearch nls search (map VString ss) filterBy strict
  = map VString
      (List.filter
         (fun s => includes (toLocaleLowerCase s)
                     (toLocaleLowerCase (value_of search)))
         ss).
Proof.
  intros Hf. rewrite useSearch_results.
  induction ss as [|s ss IH]; simpl; [reflexivity|].
  rewrite (keep_string _ _ _ _ _ _ Hf).
  destruct (includes _ _); simpl; now rewrite IH.
Qed.

(** C8. On a collection of strings the queries [ABC] and [abc] give the
    same result, under either strictness. The query is folded once, the
    fold being the [q] every comparison receives, and each candidate is
    folded when compared: the result is the strings whose folded form
    contains the folded query, so two queries with the same fold give the
    same result. *)
Theorem case_insensitive_query (nls : Z -> string) (ss : list string)
  (strict : MaybeRef bool) :
  useSearch nls (mkRef "ABC") (map VString ss) None strict
  = useSearch nls (mkRef "abc") (map VString ss) None strict
  /\ (forall search filterBy,
        isGlobalPredicate (option_map unref filterBy) = false ->
        useSearch nls search (map VString ss) filterBy strict
        = map VString
            (List.filter
               (fun s => includes (toLocaleLowerCase s)
                           (toLocaleLowerCase (value_of search)))
               ss))
  /\ (forall search1 search2 filterBy,
        isGlobalPredicate (option_map unref filterBy) = false ->
        toLocaleLowerCase (value_of search1)
        = toLocaleLowerCase (value_of search2) ->
        useSearch nls search1 (map VString ss) filterBy strict
        = useSearch nls search2 (map VString ss) filterBy strict).
Proof.
  split; [|split].
  - now rewrite !useSearch_strings.
  - intros search filterBy Hf. now apply useSearch_strings.
  - intros search1 search2 filterBy Hf Hq.
    rewrite !useSearch_strings by exact Hf. now rewrite Hq.
Qed.

Example case_insensitive_run :
  useSearch enUS (mkRef "ABC") [VString "xAbCx"; VString "ab"; VString "abc"]
    None (Plain true)
  = [VString "xAbCx"; VString "abc"].
Proof. reflexivity. Qed.

(** ** Shape of the result *)

(** C9. For every query, configuration and strictness the result is a
    subsequence of the collection: it is the collection with the items the
    callback refuses removed, so every returned item comes from the
    collection, in the order of the collection, and each occurrence of a
    repeated item is decided by the same test. *)
Theorem result_is_subsequence (nls : Z -> string) (search : Ref string)
  (data : list value) (filterBy : option (MaybeRef typeFilterBy))
  (strict : MaybeRef bool) :
  sublist (useSearch nls search data filterBy strict) data
  /\ (forall item,
        In item (useSearch nls search data filterBy strict) -> In item data)
  /\ useSearch nls search data filterBy strict
     = List.filter
         (keep nls (value_of search) (toLocaleLowerCase (value_of search))
            (option_map unref filterBy) (unref strict))
         data
  /\ (length (useSearch nls search data filterBy strict) <= length data)%nat.
Proof.
  rewrite useSearch_results.
  split; [apply filter_sublist|].
  split; [intros item Hin; now apply filter_In in Hin|].
  split; [reflexivity|].
  apply sublist_length, filter_sublist.
Qed.

Example duplicates_kept :
  useSearch enUS (mkRef "a")
    [VString "a"; VString "b"; VString "a"; VString "ba"] None (Plain false)
  = [VString "a"; VString "a"; VString "ba"].
Proof. reflexivity. Qed.

(** ** The empty string as a property value *)

(** C10. When the named property of an object is the empty string, the
    property test answers [false] for every query, the empty one included,
    under either strictness: the extracted empty string is falsy and is
    treated as "no value". *)
Theorem empty_string_property_never_matches (nls : Z -> string)
  (props : list (string * value)) (propertyName q : string) (strict : bool) :
  get (VObject props) propertyName = VString "" ->
  filterObjectViaProperty nls (VObject props) propertyName q strict = false.
Proof.
  intros Hget. unfold filterObjectViaProperty, extractStringValueFromObj.
  rewrite Hget. now destruct strict.
Qed.

Lemma empty_string_property_never_matches_witness :
  filterObjectViaProperty enUS
    (VObject [("id", VNumber 1); ("name", VString "")]) "name" "" false
  = false.
Proof.
  apply (empty_string_property_never_matches enUS
           [("id", VNumber 1); ("name", VString "")] "name" "" false).
  reflexivity.
Defined.

(** * Further properties of the filter *)

(** ** Folding, containment and length *)

Lemma append_assoc3 (a b c : string) : (a +:+ b) +:+ c = a +:+ b +:+ c.
Proof.
  induction a as [|x a IH]; [reflexivity|].
  rewrite !append_String. now rewrite IH.
Qed.


Lemma lower_ascii_idem (c : ascii) : lower_ascii (lower_ascii c) = lower_ascii c.
Proof. destruct c as [[] [] [] [] [] [] [] []]; reflexivity. Qed.

Lemma toLocaleLowerCase_idem (s : string) :
  toLocaleLowerCase (toLocaleLowerCase s) = toLocaleLowerCase s.
Proof.
  induction s as [|c s IH]; simpl; [reflexivity|].
  now rewrite lower_ascii_idem, IH.
Qed.




Lemma includes_trans (s q2 q1 : string) :
  includes s q2 = true -> includes q2 q1 = true -> includes s q1 = true.
Proof.
  rewrite !includes_app. intros (a & b & ->) (c & d & ->).
  exists (a +:+ c), (d +:+ b).
  now rewrite !append_assoc3.
Qed.


(** ** The callback, case by case *)

(** An admitted primitive is decided by the comparison of lines 75-82
    alone. *)
Lemma keep_admitted (nls : Z -> string) (searchValue q : string)
  (f : option typeFilterBy) (strict : bool) (item : value) :
  isGlobalPredicate f = false ->
  admitted strict item = true ->
  keep nls searchValue q f strict item
  = includes (toLocaleLowerCase (String_of item)) q.
Proof.
  intros Hf Ha. unfold keep.
  destruct f as [[p|l|g]|]; try discriminate;
    destruct strict, item; try discriminate; reflexivity.
Qed.

(** What is neither admitted nor an object is refused on line 149. *)
Lemma keep_refused (nls : Z -> string) (searchValue q : string)
  (f : option typeFilterBy) (strict : bool) (item : value) :
  isGlobalPredicate f = false ->
  admitted strict item = false ->
  isObject item = false ->
  keep nls searchValue q f strict item = false.
Proof.
  intros Hf Ha Ho. unfold keep.
  destruct f as [[p|l|g]|]; try discriminate;
    destruct strict, item; try discriminate; reflexivity.
Qed.

Lemma keep_object_String (nls : Z -> string) (searchValue q p : string)
  (strict : bool) (props : list (string * value)) :
  p <> "" ->
  keep nls searchValue q (Some (FilterByString p)) strict (VObject props)
  = filterObjectViaProperty nls (VObject props) p q strict.
Proof.
  intros Hp. apply String.eqb_neq in Hp. unfold keep, not_filterBy. simpl.
  rewrite Hp. now destruct strict.
Qed.

Lemma keep_object_empty_String (nls : Z -> string) (searchValue q : string)
  (strict : bool) (props : list (string * value)) :
  keep nls searchValue q (Some (FilterByString "")) strict (VObject props)
  = Array_some (entryTest strict q) (Object_entries (VObject props)).
Proof. now destruct strict. Qed.

Lemma Array_some_names (nls : Z -> string) (searchValue q : string)
  (strict : bool) (item : value) (ps : list string) :
  Array_some (elementTest nls searchValue q strict item) (map ByName ps)
  = existsb (fun p => filterObjectViaProperty nls item p q strict) ps.
Proof.
  rewrite Array_some_existsb.
  induction ps as [|p ps IH]; simpl; [reflexivity | now rewrite IH].
Qed.


Lemma extract_not_admitted (nls : Z -> string) (obj : value) (key : string)
  (strict : bool) :
  admitted strict (get obj key) = false ->
  extractStringValueFromObj nls obj key strict = None.
Proof.
  unfold extractStringValueFromObj, admitted.
  destruct strict, (get obj key); simpl; congruence.
Qed.

Lemma entries_from_In (seen : list string) (props : list (string * value))
  (e : string * value) :
  In e (entries_from seen props) -> In e props.
Proof.
  revert seen. induction props as [|[k v] rest IH]; intros seen; simpl; [tauto|].
  destruct (existsb (String.eqb k) seen).
  - intros Hin. right. now apply (IH seen).
  - intros [<-|Hin]; [now left | right; now apply (IH (k :: seen))].
Qed.

Lemma filter_idem {A : Type} (f : A -> bool) (l : list A) :
  List.filter f (List.filter f l) = List.filter f l.
Proof.
  induction l as [|x l IH]; simpl; [reflexivity|].
  destruct (f x) eqn:Hx; simpl; [rewrite Hx; now f_equal | exact IH].
Qed.

Lemma filter_all {A : Type} (f : A -> bool) (l : list A) :
  Forall (fun x => f x = true) l -> List.filter f l = l.
Proof.
  induction 1 as [|x l Hx _ IH]; simpl; [reflexivity|].
  rewrite Hx. now f_equal.
Qed.

(** ** Primitive items *)

(** X1. A string item, and in loose mode a number or boolean item, is
    returned iff its plain string form, folded, contains the folded query;
    the configuration, unless it is a whole-query predicate, plays no
    part. *)
Theorem primitive_item_ignores_configuration (nls : Z -> string)
  (search : Ref string) (data : list value)
  (filterBy : option (MaybeRef typeFilterBy)) (strict : MaybeRef bool)
  (item : value) :
  isGlobalPredicate (option_map unref filterBy) = false ->
  admitted (unref strict) item = true ->
  In item (useSearch nls search data filterBy strict)
  <-> In item data
      /\ includes (toLocaleLowerCase (String_of item))
           (toLocaleLowerCase (value_of search)) = true.
Proof.
  intros Hf Ha. rewrite useSearch_results, filter_In.
  now rewrite (keep_admitted _ _ _ _ _ _ Hf Ha).
Qed.

Lemma primitive_item_ignores_configuration_witness :
  In (VNumber 42)
    (useSearch enUS (mkRef "4") [VNumber 42; VBoolean true]
       (Some (Plain (FilterByString "name"))) (Plain false))
  <-> In (VNumber 42) [VNumber 42; VBoolean true]
      /\ includes (toLocaleLowerCase (String_of (VNumber 42)))
           (toLocaleLowerCase "4") = true.
Proof.
  apply (primitive_item_ignores_configuration enUS (mkRef "4")
           [VNumber 42; VBoolean true]
           (Some (Plain (FilterByString "name"))) (Plain false) (VNumber 42));
    reflexivity.
Defined.

(** X2. An item that the strictness does not admit as a primitive and that
    is not an object ([null], [undefined], a function, an array; a number
    or a boolean under [strict]) is refused for every query and every
    configuration other than a whole-query predicate. *)
Theorem unmatchable_item_refused (nls : Z -> string) (search : Ref string)
  (data : list value) (filterBy : option (MaybeRef typeFilterBy))
  (strict : MaybeRef bool) (item : value) :
  isGlobalPredicate (option_map unref filterBy) = false ->
  admitted (unref strict) item = false ->
  isObject item = false ->
  keep nls (value_of search) (toLocaleLowerCase (value_of search))
    (option_map unref filterBy) (unref strict) item = false
  /\ ~ In item (useSearch nls search data filterBy strict).
Proof.
  intros Hf Ha Ho.
  assert (Hk := keep_refused nls (value_of search)
                  (toLocaleLowerCase (value_of search)) _ _ _ Hf Ha Ho).
  split; [exact Hk|].
  rewrite useSearch_results, filter_In. intros [_ Hin]. congruence.
Qed.

Lemma unmatchable_item_refused_witness :
  keep enUS "4" (toLocaleLowerCase "4") None true (VNumber 42) = false
  /\ ~ In (VNumber 42)
        (useSearch enUS (mkRef "4") [VNumber 42; VNull; VString "42"]
           None (Plain true)).
Proof.
  apply (unmatchable_item_refused enUS (mkRef "4")
           [VNumber 42; VNull; VString "42"] None (Plain true) (VNumber 42));
    reflexivity.
Defined.

(** ** Degenerate configurations *)

(** X3. The empty string as [filterBy] is falsy, so it selects the scan of
    all properties: the result is the one obtained with no
    configuration. *)
Theorem empty_property_name_is_full_scan (nls : Z -> string)
  (search : Ref string) (data : list value) (strict : MaybeRef bool) :
  useSearch nls search data (Some (Plain (FilterByString ""))) strict
  = useSearch nls search data None strict
  /\ useSearch nls search data (Some (Cell (mkRef (FilterByString "")))) strict
     = useSearch nls search data None strict.
Proof.
  rewrite !useSearch_results. simpl option_map.
  split; apply filter_ext; intros item; unfold keep;
    destruct (unref strict), item; reflexivity.
Qed.

(** X4. With an empty list as [filterBy] no object is ever returned: the
    result is the admitted primitive items that contain the query. *)
Theorem empty_matcher_list (nls : Z -> string) (search : Ref string)
  (data : list value) (strict : MaybeRef bool) (item : value) :
  In item (useSearch nls search data (Some (Plain (FilterByArray []))) strict)
  <-> In item data
      /\ admitted (unref strict) item = true
      /\ includes (toLocaleLowerCase (String_of item))
           (toLocaleLowerCase (value_of search)) = true.
Proof.
  rewrite useSearch_results, filter_In. simpl option_map.
  destruct (admitted (unref strict) item) eqn:Ha.
  - rewrite (keep_admitted nls _ _ (Some (FilterByArray [])) _ _ eq_refl Ha).
    tauto.
  - destruct (isObject item) eqn:Ho.
    + destruct item; try discriminate. rewrite keep_object_Array.
      split; [intros [_ H]; discriminate | intros (_ & H & _); discriminate].
    + rewrite (keep_refused nls _ _ (Some (FilterByArray [])) _ _ eq_refl Ha Ho).
      split; [intros [_ H]; discriminate | intros (_ & H & _); discriminate].
Qed.

(** ** Objects *)

(** X5. Under a property name, an object whose named property is missing,
    or holds a value the strictness does not admit, is refused for every
    query. *)
Theorem unadmitted_property_excludes (nls : Z -> string) (search : Ref string)
  (data : list value) (p : string) (strict : MaybeRef bool)
  (props : list (string * value)) :
  p <> "" ->
  admitted (unref strict) (get (VObject props) p) = false ->
  keep nls (value_of search) (toLocaleLowerCase (value_of search))
    (Some (FilterByString p)) (unref strict) (VObject props) = false
  /\ ~ In (VObject props)
        (useSearch nls search data (Some (Plain (FilterByString p))) strict).
Proof.
  intros Hp Ha.
  assert (Hk : keep nls (value_of search) (toLocaleLowerCase (value_of search))
                 (Some (FilterByString p)) (unref strict) (VObject props)
               = false).
  { rewrite keep_object_String by exact Hp.
    unfold filterObjectViaProperty. now rewrite extract_not_admitted. }
  split; [exact Hk|].
  rewrite useSearch_results, filter_In. simpl option_map.
  intros [_ Hin]. congruence.
Qed.

Lemma unadmitted_property_excludes_witness :
  keep enUS "a" (toLocaleLowerCase "a") (Some (FilterByString "email")) false
    (VObject [("name", VString "Ann")]) = false
  /\ ~ In (VObject [("name", VString "Ann")])
        (useSearch enUS (mkRef "a") [VObject [("name", VString "Ann")]]
           (Some (Plain (FilterByString "email"))) (Plain false)).
Proof.
  apply (unadmitted_property_excludes enUS (mkRef "a")
           [VObject [("name", VString "Ann")]] "email" (Plain false)
           [("name", VString "Ann")]).
  - discriminate.
  - reflexivity.
Defined.

(** X6. With no configuration, an object none of whose values is admitted
    (the empty object among them) is refused for every query, the empty
    one included. *)
Theorem object_without_admitted_value (nls : Z -> string) (search : Ref string)
  (data : list value) (strict : MaybeRef bool)
  (props : list (string * value)) :
  Forall (fun kv => admitted (unref strict) (snd kv) = false) props ->
  keep nls (value_of search) (toLocaleLowerCase (value_of search))
    None (unref strict) (VObject props) = false
  /\ ~ In (VObject props) (useSearch nls search data None strict).
Proof.
  intros Hall.
  assert (Hk : keep nls (value_of search) (toLocaleLowerCase (value_of search))
                 None (unref strict) (VObject props) = false).
  { rewrite keep_object_None.
    destruct (Array_some _ _) eqn:Hs; [|reflexivity].
    apply Array_some_true in Hs as [[k v] [Hin Ht]].
    rewrite entryTest_admitted in Ht. apply andb_true_iff in Ht as [Ha _].
    apply entries_from_In, list_elem_of_In in Hin.
    rewrite Forall_forall in Hall. specialize (Hall _ Hin). simpl in Hall.
    congruence. }
  split; [exact Hk|].
  rewrite useSearch_results, filter_In. simpl option_map.
  intros [_ Hin]. congruence.
Qed.

Lemma object_without_admitted_value_witness :
  keep enUS "" (toLocaleLowerCase "") None false
    (VObject [("tags", VArray [VString "x"]); ("owner", VNull)]) = false
  /\ ~ In (VObject [("tags", VArray [VString "x"]); ("owner", VNull)])
        (useSearch enUS (mkRef "")
           [VObject [("tags", VArray [VString "x"]); ("owner", VNull)]]
           None (Plain false)).
Proof.
  apply (object_without_admitted_value enUS (mkRef "")
           [VObject [("tags", VArray [VString "x"]); ("owner", VNull)]]
           (Plain false) [("tags", VArray [VString "x"]); ("owner", VNull)]).
  repeat constructor.
Defined.

(** ** Lists of property names *)

Lemma existsb_constant {A : Type} (g : A -> bool) (b : bool) (l : list A) :
  l <> [] -> (forall x, In x l -> g x = b) -> existsb g l = b.
Proof.
  induction l as [|x l IH]; [congruence|]. intros _ Hg. simpl.
  rewrite (Hg x (or_introl eq_refl)). destruct b; [reflexivity|]. simpl.
  destruct l as [|y l]; [reflexivity|].
  apply IH; [discriminate|]. intros z Hz. apply Hg. now right.
Qed.

Lemma existsb_agree {A : Type} (g h : A -> bool) (l : list A) :
  (forall x, In x l -> g x = h x) -> existsb g l = existsb h l.
Proof.
  induction l as [|x l IH]; [reflexivity|]. intros Hgh. simpl.
  rewrite (Hgh x (or_introl eq_refl)). f_equal.
  apply IH. intros z Hz. apply Hgh. now right.
Qed.

Lemma keep_names_existsb (nls : Z -> string) (searchValue q : string)
  (strict : bool) (ps : list string) (item : value) :
  ps <> [] ->
  (forall p, In p ps -> p <> "") ->
  keep nls searchValue q (Some (FilterByArray (map ByName ps))) strict item
  = existsb
      (fun p => keep nls searchValue q (Some (FilterByString p)) strict item)
      ps.
Proof.
  intros Hne Hps. destruct (admitted strict item) eqn:Ha.
  - rewrite (keep_admitted nls _ _ (Some (FilterByArray _)) _ _ eq_refl Ha).
    symmetry. apply existsb_constant; [exact Hne|]. intros p _.
    apply (keep_admitted nls _ _ (Some (FilterByString p)) _ _ eq_refl Ha).
  - destruct (isObject item) eqn:Ho.
    + destruct item; try discriminate.
      rewrite keep_object_Array, Array_some_names.
      apply existsb_agree. intros p Hp. symmetry.
      apply keep_object_String. now apply Hps.
    + rewrite (keep_refused nls _ _ (Some (FilterByArray _)) _ _ eq_refl Ha Ho).
      symmetry. apply existsb_constant; [exact Hne|]. intros p _.
      apply (keep_refused nls _ _ (Some (FilterByString p)) _ _ eq_refl Ha Ho).
Qed.

(** X7. For a non-empty list of non-empty property names, an item is
    returned iff it is returned for one of the names taken alone as
    [filterBy]: the list is the union of its names. *)
Theorem names_list_is_union (nls : Z -> string) (search : Ref string)
  (data : list value) (strict : MaybeRef bool) (ps : list string)
  (item : value) :
  ps <> [] ->
  (forall p, In p ps -> p <> "") ->
  In item
    (useSearch nls search data
       (Some (Plain (FilterByArray (map ByName ps)))) strict)
  <-> exists p,
        In p ps
        /\ In item
             (useSearch nls search data (Some (Plain (FilterByString p)))
                strict).
Proof.
  intros Hne Hps. rewrite useSearch_results, filter_In. simpl option_map.
  rewrite (keep_names_existsb _ _ _ _ _ _ Hne Hps), existsb_exists.
  split.
  - intros (Hin & p & Hp & Hk). exists p. split; [exact Hp|].
    rewrite useSearch_results, filter_In. now split.
  - intros (p & Hp & Hin). rewrite useSearch_results, filter_In in Hin.
    destruct Hin as [Hin Hk]. split; [exact Hin|]. now exists p.
Qed.

Lemma names_list_is_union_witness :
  In (VObject [("name", VString "Bob"); ("email", VString "ann@x.org")])
    (useSearch enUS (mkRef "ann")
       [VObject [("name", VString "Bob"); ("email", VString "ann@x.org")]]
       (Some (Plain (FilterByArray (map ByName ["name"; "email"]))))
       (Plain false))
  <-> exists p,
        In p ["name"; "email"]
        /\ In (VObject [("name", VString "Bob"); ("email", VString "ann@x.org")])
             (useSearch enUS (mkRef "ann")
                [VObject [("name", VString "Bob");
                          ("email", VString "ann@x.org")]]
                (Some (Plain (FilterByString p))) (Plain false)).
Proof.
  apply (names_list_is_union enUS (mkRef "ann")
           [VObject [("name", VString "Bob"); ("email", VString "ann@x.org")]]
           (Plain false) ["name"; "email"]).
  - discriminate.
  - intros p [<-|[<-|[]]]; discriminate.
Defined.

(** ** A property name against the scan of all properties *)




(** In loose mode the inclusion fails where the locale groups digits. *)
Example loose_property_outside_scan :
  useSearch enUS (mkRef "1,2") [VObject [("a", VNumber 1234)]]
    (Some (Plain (FilterByString "a"))) (Plain false)
  = [VObject [("a", VNumber 1234)]]
  /\ useSearch enUS (mkRef "1,2") [VObject [("a", VNumber 1234)]]
       None (Plain false)
     = [].
Proof. split; reflexivity. Qed.

(** ** Refining the query *)

Lemma filterObjectViaProperty_query_mono (nls : Z -> string) (obj : value)
  (p q1 q2 : string) (strict : bool) :
  includes q2 q1 = true ->
  filterObjectViaProperty nls obj p q2 strict = true ->
  filterObjectViaProperty nls obj p q1 strict = true.
Proof.
  intros Hq. rewrite !filterObjectViaProperty_true.
  intros (s & Hs & Hne & Hi). exists s. repeat split; [exact Hs|exact Hne|].
  now apply (includes_trans _ q2).
Qed.

Lemma entryTest_query_mono (strict : bool) (q1 q2 : string)
  (entry : string * value) :
  includes q2 q1 = true ->
  entryTest strict q2 entry = true -> entryTest strict q1 entry = true.
Proof.
  intros Hq. destruct entry as [k v]. rewrite !entryTest_admitted.
  rewrite !andb_true_iff. intros [Ha Hi]. split; [exact Ha|].
  now apply (includes_trans _ q2).
Qed.

(** The configurations that hold no caller-supplied function. *)
Lemma keep_query_mono (nls : Z -> string) (sv1 sv2 q1 q2 : string)
  (f : option typeFilterBy) (strict : bool) (item : value) :
  f = None
  \/ (exists p, f = Some (FilterByString p))
  \/ (exists ps, f = Some (FilterByArray (map ByName ps))) ->
  includes q2 q1 = true ->
  keep nls sv2 q2 f strict item = true ->
  keep nls sv1 q1 f strict item = true.
Proof.
  intros Hf Hq.
  assert (Hg : isGlobalPredicate f = false).
  { destruct Hf as [->|[[p ->]|[ps ->]]]; reflexivity. }
  destruct (admitted strict item) eqn:Ha.
  - rewrite !(keep_admitted nls _ _ f _ _ Hg Ha).
    intros Hi. now apply (includes_trans _ q2).
  - destruct (isObject item) eqn:Ho.
    + destruct item; try discriminate.
      destruct Hf as [->|[[p ->]|[ps ->]]].
      * rewrite !keep_object_None, !Array_some_true.
        intros [e [Hin He]]. exists e. split; [exact Hin|].
        now apply (entryTest_query_mono _ _ q2).
      * destruct (String.eqb p "") eqn:Hp.
        -- apply String.eqb_eq in Hp. subst p.
           rewrite !keep_object_empty_String, !Array_some_true.
           intros [e [Hin He]]. exists e. split; [exact Hin|].
           now apply (entryTest_query_mono _ _ q2).
        -- apply String.eqb_neq in Hp. rewrite !keep_object_String by exact Hp.
           now apply filterObjectViaProperty_query_mono.
      * rewrite !keep_object_Array, !Array_some_names, !existsb_exists.
        intros [p [Hin Hp]]. exists p. split; [exact Hin|].
        now apply (filterObjectViaProperty_query_mono _ _ _ _ q2).
    + now rewrite (keep_refused nls _ _ f _ _ Hg Ha Ho).
Qed.

(** X9. When the query is extended (the new query contains the old one,
    capitals aside), the new result is a subsequence of the old one, for a configuration
    that is absent, a property name or a list of property names: typing
    more never brings an item back. *)
Theorem longer_query_narrows (nls : Z -> string) (search1 search2 : Ref string)
  (data : list value) (strict : MaybeRef bool) (p : string)
  (ps : list string) :
  includes (toLocaleLowerCase (value_of search2))
    (toLocaleLowerCase (value_of search1)) = true ->
  sublist (useSearch nls search2 data None strict)
          (useSearch nls search1 data None strict)
  /\ sublist
       (useSearch nls search2 data (Some (Plain (FilterByString p))) strict)
       (useSearch nls search1 data (Some (Plain (FilterByString p))) strict)
  /\ sublist
       (useSearch nls search2 data
          (Some (Plain (FilterByArray (map ByName ps)))) strict)
       (useSearch nls search1 data
          (Some (Plain (FilterByArray (map ByName ps)))) strict).
Proof.
  intros Hq. rewrite !useSearch_results.
  simpl option_map.
  repeat split; apply filter_sublist_mono; intros x;
    apply keep_query_mono; eauto.
Qed.

Lemma longer_query_narrows_witness :
  sublist
    (useSearch enUS (mkRef "Ann") [VString "anna"; VString "Dan"] None
       (Plain false))
    (useSearch enUS (mkRef "an") [VString "anna"; VString "Dan"] None
       (Plain false))
  /\ sublist
       (useSearch enUS (mkRef "Ann") [VString "anna"; VString "Dan"]
          (Some (Plain (FilterByString "name"))) (Plain false))
       (useSearch enUS (mkRef "an") [VString "anna"; VString "Dan"]
          (Some (Plain (FilterByString "name"))) (Plain false))
  /\ sublist
       (useSearch enUS (mkRef "Ann") [VString "anna"; VString "Dan"]
          (Some (Plain (FilterByArray (map ByName ["name"])))) (Plain false))
       (useSearch enUS (mkRef "an") [VString "anna"; VString "Dan"]
          (Some (Plain (FilterByArray (map ByName ["name"])))) (Plain false)).
Proof.
  apply (longer_query_narrows enUS (mkRef "an") (mkRef "Ann")
           [VString "anna"; VString "Dan"] (Plain false) "name" ["name"]).
  reflexivity.
Defined.

(** A caller-supplied matcher sees the raw query and may do otherwise. *)
Example custom_matcher_may_widen :
  useSearch enUS (mkRef "an") [VObject [("name", VString "Bob")]]
    (Some (Plain (FilterByArray
       [ByCustom "name" (fun _ q _ => String.eqb q "ann")])))
    (Plain false)
  = []
  /\ useSearch enUS (mkRef "ann") [VObject [("name", VString "Bob")]]
       (Some (Plain (FilterByArray
          [ByCustom "name" (fun _ q _ => String.eqb q "ann")])))
       (Plain false)
     = [VObject [("name", VString "Bob")]].
Proof. split; reflexivity. Qed.

(** ** Capitals *)



(** X11. Two string items that differ only by their capitals are decided
    alike: both kept or both refused, for every query, strictness and
    configuration short of a whole-query predicate. *)
Theorem capitals_of_item_irrelevant (nls : Z -> string)
  (searchValue : string) (f : option typeFilterBy) (strict : bool)
  (s1 s2 : string) :
  isGlobalPredicate f = false ->
  toLocaleLowerCase s1 = toLocaleLowerCase s2 ->
  keep nls searchValue (toLocaleLowerCase searchValue) f strict (VString s1)
  = keep nls searchValue (toLocaleLowerCase searchValue) f strict (VString s2).
Proof.
  intros Hf Hs. rewrite !keep_string by exact Hf. now rewrite Hs.
Qed.

Lemma capitals_of_item_irrelevant_witness :
  keep enUS "nn" (toLocaleLowerCase "nn") None true (VString "ANNA")
  = keep enUS "nn" (toLocaleLowerCase "nn") None true (VString "Anna").
Proof.
  apply (capitals_of_item_irrelevant enUS "nn" None true "ANNA" "Anna");
    reflexivity.
Defined.

(** ** Composition *)

(** X12. Filtering a result again with the same query, configuration and
    strictness returns it unchanged. *)
Theorem useSearch_idempotent (nls : Z -> string) (search : Ref string)
  (data : list value) (filterBy : option (MaybeRef typeFilterBy))
  (strict : MaybeRef bool) :
  useSearch nls search (useSearch nls search data filterBy strict)
    filterBy strict
  = useSearch nls search data filterBy strict.
Proof. rewrite !useSearch_results. apply filter_idem. Qed.

(** X13. The result over two collections put end to end is the two
    results put end to end: an item is decided without regard to its
    neighbours or its position. *)
Theorem useSearch_app (nls : Z -> string) (search : Ref string)
  (data1 data2 : list value) (filterBy : option (MaybeRef typeFilterBy))
  (strict : MaybeRef bool) :
  useSearch nls search (data1 ++ data2)%list filterBy strict
  = (useSearch nls search data1 filterBy strict
     ++ useSearch nls search data2 filterBy strict)%list.
Proof. rewrite !useSearch_results. apply List.filter_app. Qed.

(** ** The empty query and long queries *)

(** X14. With the empty query a collection made of admitted primitives
    only (strings; numbers and booleans too in loose mode) is returned
    whole, under every configuration short of a whole-query predicate. *)
Theorem empty_query_keeps_admitted (nls : Z -> string) (search : Ref string)
  (data : list value) (filterBy : option (MaybeRef typeFilterBy))
  (strict : MaybeRef bool) :
  value_of search = "" ->
  isGlobalPredicate (option_map unref filterBy) = false ->
  Forall (fun item => admitted (unref strict) item = true) data ->
  useSearch nls search data filterBy strict = data.
Proof.
  intros Hs Hf Hall. rewrite useSearch_results, Hs. apply filter_all.
  eapply Forall_impl; [exact Hall|]. intros item Ha. simpl in Ha.
  rewrite (keep_admitted _ _ _ _ _ _ Hf Ha). apply includes_empty_query.
Qed.

Lemma empty_query_keeps_admitted_witness :
  useSearch enUS (mkRef "") [VString "a"; VNumber 7; VBoolean false]
    (Some (Plain (FilterByString "name"))) (Plain false)
  = [VString "a"; VNumber 7; VBoolean false].
Proof.
  apply (empty_query_keeps_admitted enUS (mkRef "")
           [VString "a"; VNumber 7; VBoolean false]
           (Some (Plain (FilterByString "name"))) (Plain false)).
  - reflexivity.
  - reflexivity.
  - repeat constructor.
Defined.



(** ** Where strictness matters *)

Lemma lookup_prop_cases (props : list (string * value)) (k : string) :
  lookup_prop props k = VUndefined \/ In (k, lookup_prop props k) props.
Proof.
  induction props as [|[k0 v0] rest IH]; simpl; [now left|].
  destruct (String.eqb k0 k) eqn:Hk.
  - apply String.eqb_eq in Hk. subst k0. right. now left.
  - destruct IH as [IH|IH]; [now left | right; now right].
Qed.

Lemma filterObjectViaProperty_strict_irrelevant (nls : Z -> string)
  (obj : value) (p q : string) :
  admitted false (get obj p) = admitted true (get obj p) ->
  filterObjectViaProperty nls obj p q true
  = filterObjectViaProperty nls obj p q false.
Proof.
  unfold filterObjectViaProperty, extractStringValueFromObj.
  destruct (get obj p); simpl; try reflexivity; discriminate.
Qed.

Lemma entryTest_strict_irrelevant (q : string) (entry : string * value) :
  admitted false (snd entry) = admitted true (snd entry) ->
  entryTest true q entry = entryTest false q entry.
Proof.
  destruct entry as [k v]. destruct v; simpl; try reflexivity; discriminate.
Qed.

Lemma keep_strict_irrelevant (nls : Z -> string) (searchValue q : string)
  (f : option typeFilterBy) (item : value) :
  admitted false item = admitted true item ->
  (forall props, item = VObject props ->
     Forall (fun kv => admitted false (snd kv) = admitted true (snd kv)) props) ->
  keep nls searchValue q f true item = keep nls searchValue q f false item.
Proof.
  intros Hitem Hprops.
  assert (Hget : forall props p, item = VObject props ->
            admitted false (get item p) = admitted true (get item p)).
  { intros props p ->. simpl.
    destruct (lookup_prop_cases props p) as [->|Hin]; [reflexivity|].
    specialize (Hprops props eq_refl). rewrite Forall_forall in Hprops.
    apply list_elem_of_In in Hin. exact (Hprops _ Hin). }
  destruct f as [[p|l|g]|]; [| |reflexivity|].
  - destruct item; try reflexivity; try discriminate.
    destruct (String.eqb p "") eqn:Hp.
    + apply String.eqb_eq in Hp. subst p.
      rewrite !keep_object_empty_String, !Array_some_existsb.
      apply existsb_agree. intros e He. apply entryTest_strict_irrelevant.
      apply entries_from_In, list_elem_of_In in He.
      specialize (Hprops props eq_refl). rewrite Forall_forall in Hprops.
      exact (Hprops _ He).
    + apply String.eqb_neq in Hp. rewrite !keep_object_String by exact Hp.
      apply filterObjectViaProperty_strict_irrelevant. now apply (Hget props).
  - destruct item; try reflexivity; try discriminate.
    rewrite !keep_object_Array, !Array_some_existsb.
    apply existsb_agree. intros [p|name c] _; [|reflexivity]. simpl.
    apply filterObjectViaProperty_strict_irrelevant. now apply (Hget props).
  - destruct item; try reflexivity; try discriminate.
    rewrite !keep_object_None, !Array_some_existsb.
    apply existsb_agree. intros e He. apply entryTest_strict_irrelevant.
    apply entries_from_In, list_elem_of_In in He.
    specialize (Hprops props eq_refl). rewrite Forall_forall in Hprops.
    exact (Hprops _ He).
Qed.

(** X16. When no item of the collection is a number or a boolean and no
    object of the collection has a number or a boolean among its property
    values, the strictness flag has no effect: both settings return the
    same result, under every configuration. *)
Theorem strictness_irrelevant_without_numbers (nls : Z -> string)
  (search : Ref string) (data : list value)
  (filterBy : option (MaybeRef typeFilterBy)) (strict1 strict2 : MaybeRef bool) :
  Forall
    (fun item =>
       admitted false item = admitted true item
       /\ forall props,
            item = VObject props ->
            Forall (fun kv => admitted false (snd kv) = admitted true (snd kv))
              props)
    data ->
  useSearch nls search data filterBy strict1
  = useSearch nls search data filterBy strict2.
Proof.
  intros Hall. rewrite !useSearch_results.
  induction Hall as [|item data [Hitem Hprops] _ IH]; simpl; [reflexivity|].
  assert (Hk : forall b1 b2,
            keep nls (value_of search) (toLocaleLowerCase (value_of search))
              (option_map unref filterBy) b1 item
            = keep nls (value_of search) (toLocaleLowerCase (value_of search))
                (option_map unref filterBy) b2 item).
  { intros [] []; try reflexivity;
      [|symmetry]; now apply keep_strict_irrelevant. }
  rewrite (Hk (unref strict1) (unref strict2)), IH. reflexivity.
Qed.

Lemma strictness_irrelevant_without_numbers_witness :
  useSearch enUS (mkRef "an")
    [VString "Ann"; VObject [("name", VString "Dan"); ("tags", VNull)]]
    None (Plain true)
  = useSearch enUS (mkRef "an")
      [VString "Ann"; VObject [("name", VString "Dan"); ("tags", VNull)]]
      None (Plain false).
Proof.
  apply (strictness_irrelevant_without_numbers enUS (mkRef "an")
           [VString "Ann"; VObject [("name", VString "Dan"); ("tags", VNull)]]
           None (Plain true) (Plain false)).
  repeat constructor; intros props Hp; inversion Hp; repeat constructor.
Defined.
